(** * Bucket storage selection (pkg/storage/bucketstorage.go)

    A shallow embedding of the Go file [pkg/storage/bucketstorage.go]:
    the path helpers [trimLeading] and [trimName], the cluster identifier
    derivation [getClusterIdentifier] and the provider dispatch
    [NewBucketStorage].

    Go strings are byte sequences; they are modelled by [string], whose
    characters are 8-bit [ascii] values.  Go's [int] is 64 bits wide; every
    integer computed here is a length or an index of a string held in
    memory, so it is modelled by [Z] without wrap-around.  Indexing and
    slicing are partial in Go (they panic outside the bounds); the model
    makes that explicit with the type [outcome]. *)

From Stdlib Require Import String Ascii List ZArith Lia Bool.
Import ListNotations.

Local Open Scope string_scope.
Local Open Scope Z_scope.

(** ** Go runtime: strings, indexing, slicing *)

Module Go.

(** The run-time errors the code of this file can raise. *)
Inductive runtime_error : Type :=
| IndexOutOfRange (i len : Z)
| SliceBoundsOutOfRange (bound len : Z).

(** What evaluating a Go expression or calling a Go function yields:
    a value, or a panic that unwinds the caller. *)
Inductive outcome (A : Type) : Type :=
| Returns (a : A)
| Panics (e : runtime_error).

Arguments Returns {A} a.
Arguments Panics {A} e.

Definition returns {A : Type} (o : outcome A) : bool :=
  match o with
  | Returns _ => true
  | Panics _ => false
  end.

(** Sequencing: the second call runs on what the first returned, and a
    panic of the first unwinds past it. *)
Definition and_then {A B : Type} (o : outcome A) (k : A -> outcome B)
  : outcome B :=
  match o with
  | Returns a => k a
  | Panics e => Panics e
  end.

(** [len(s)] *)
Definition len (s : string) : Z := Z.of_nat (String.length s).

(** The first [n] bytes of [s] (all of [s] when it is shorter). *)
Fixpoint take (n : nat) (s : string) : string :=
  match n, s with
  | O, _ => EmptyString
  | S _, EmptyString => EmptyString
  | S n', String a s' => String a (take n' s')
  end.

(** [s] without its first [n] bytes (empty when it is shorter). *)
Fixpoint drop (n : nat) (s : string) : string :=
  match n, s with
  | O, _ => s
  | S _, EmptyString => EmptyString
  | S n', String _ s' => drop n' s'
  end.

(** [s[i]]: panics unless [0 <= i < len(s)]. *)
Definition index (s : string) (i : Z) : outcome ascii :=
  if (0 <=? i) && (i <? len s) then
    match String.get (Z.to_nat i) s with
    | Some a => Returns a
    | None => Panics (IndexOutOfRange i (len s))
    end
  else Panics (IndexOutOfRange i (len s)).

(** [s[lo:]]: panics unless [0 <= lo <= len(s)]. *)
Definition slice_from (s : string) (lo : Z) : outcome string :=
  if (0 <=? lo) && (lo <=? len s) then Returns (drop (Z.to_nat lo) s)
  else Panics (SliceBoundsOutOfRange lo (len s)).

(** [s[:hi]]: panics unless [0 <= hi <= len(s)]. *)
Definition slice_to (s : string) (hi : Z) : outcome string :=
  if (0 <=? hi) && (hi <=? len s) then Returns (take (Z.to_nat hi) s)
  else Panics (SliceBoundsOutOfRange hi (len s)).

End Go.

Import Go.

(** ** Package [strings] of the Go standard library *)

Module strings.

(** [strings.LastIndex(s, substr)]: the index of the last instance of
    [substr] in [s], or -1 when there is none.  The library searches from
    the end of [s]; the result is the greatest [i] such that [substr] is a
    prefix of [s[i:]], computed here by recursion on [s]. *)
Fixpoint LastIndex (s substr : string) : Z :=
  match s with
  | EmptyString =>
      match substr with
      | EmptyString => 0
      | String _ _ => -1
      end
  | String _ s' =>
      let later := LastIndex s' substr in
      if 0 <=? later then later + 1
      else if String.prefix substr s then 0
      else -1
  end.

(** [strings.Contains(s, substr)] for a one-byte [substr]. *)
Fixpoint ContainsByte (s : string) (c : ascii) : bool :=
  match s with
  | EmptyString => false
  | String a s' => Ascii.eqb a c || ContainsByte s' c
  end.

Definition isLower (c : ascii) : bool :=
  let n := Z.of_N (N_of_ascii c) in (97 <=? n) && (n <=? 122).

Definition isASCIIByte (c : ascii) : bool :=
  Z.of_N (N_of_ascii c) <? 128.

Fixpoint isASCII (s : string) : bool :=
  match s with
  | EmptyString => true
  | String a s' => isASCIIByte a && isASCII s'
  end.

(** [c -= 'a' - 'A'] on a lower-case letter, any other byte unchanged. *)
Definition upperByte (c : ascii) : ascii :=
  if isLower c then ascii_of_N (N_of_ascii c - 32) else c.

Fixpoint upperASCII (s : string) : string :=
  match s with
  | EmptyString => EmptyString
  | String a s' => String (upperByte a) (upperASCII s')
  end.

(** [strings.ToUpper(s)].  The library maps an ASCII-only string byte by
    byte; any other string goes through [Map(unicode.ToUpper, s)], whose
    Unicode tables are not part of this development and are taken as the
    parameter [unicodeUpper]. *)
Definition ToUpper (unicodeUpper : string -> string) (s : string) : string :=
  if isASCII s then upperASCII s else unicodeUpper s.

End strings.

(** ** Path helpers *)

(** The path separator ['/']. *)
Definition slash : ascii := "/"%char.

(** [trimLeading] removes a leading / from the file name. *)
Definition trimLeading (file : string) : outcome string :=
  if len file =? 0 then Returns file
  else
    match index file 0 with
    | Panics e => Panics e
    | Returns c =>
        if Ascii.eqb c slash then slice_from file 1
        else Returns file
    end.

(** [trimName] removes the leading directory prefix. *)
Definition trimName (file : string) : outcome string :=
  let slashIndex := strings.LastIndex file "/" in
  if slashIndex <? 0 then Returns file
  else slice_from file (slashIndex + 1).

(** ** Errors (the [error] interface and github.com/pkg/errors) *)

(** [[]byte] *)
Definition bytes : Type := list Byte.byte.

(** Non-nil values of Go's [error] interface as this file meets them: an
    error handed over by a collaborator, one built by [errors.Errorf], and
    one annotated by [errors.Wrap].  A nil [error] is [None]. *)
Inductive error : Type :=
| CollaboratorError (msg : string)
| FormattedError (msg : string)
| WithMessage (cause : error) (message : string).

Module errors.

(** [err.Error()] *)
Fixpoint Error (err : error) : string :=
  match err with
  | CollaboratorError msg => msg
  | FormattedError msg => msg
  | WithMessage cause message => message ++ ": " ++ Error cause
  end.

(** [errors.Wrap(err, message)]; nil when [err] is nil. *)
Definition Wrap (err : option error) (message : string) : option error :=
  match err with
  | None => None
  | Some cause => Some (WithMessage cause message)
  end.

(** [errors.Errorf(format, args...)], the format already expanded. *)
Definition Errorf (msg : string) : option error := Some (FormattedError msg).

(** The annotations of an error, outermost first. *)
Fixpoint contexts (err : error) : list string :=
  match err with
  | CollaboratorError _ => []
  | FormattedError _ => []
  | WithMessage cause message => message :: contexts cause
  end.

End errors.

(** ** Effects: calls to collaborators, logging, standard output *)

Inductive event : Type :=
| NamespaceGet (name : string)
| LogErrorf (msg : string)
| Println (line : string)
| CallNewS3Storage (config : bytes)
| CallNewGCSStorage (config : bytes)
| CallNewAzureStorage (config : bytes).

Definition is_constructor_call (e : event) : bool :=
  match e with
  | CallNewS3Storage _ | CallNewGCSStorage _ | CallNewAzureStorage _ => true
  | NamespaceGet _ | LogErrorf _ | Println _ => false
  end.

(** A computation lists the effects it performed, in order, up to its
    return or its panic. *)
Definition M (A : Type) : Type := (list event * outcome A)%type.

Definition ret {A : Type} (a : A) : M A := ([], Returns a).

Definition bind {A B : Type} (m : M A) (k : A -> M B) : M B :=
  match m with
  | (tr, Returns a) => let (tr', r) := k a in ((tr ++ tr')%list, r)
  | (tr, Panics e) => (tr, Panics e)
  end.

Definition emit (e : event) : M unit := ([e], Returns tt).

Definition lift {A : Type} (o : outcome A) : M A := ([], o).

Definition trace {A : Type} (m : M A) : list event := fst m.

Definition result {A : Type} (m : M A) : outcome A := snd m.

Notation "x <- m ;; k" := (bind m (fun x => k))
  (at level 61, m at next level, right associativity).
Notation "m ;;; k" := (bind m (fun _ => k))
  (at level 61, right associativity).

(** ** Data model *)

(** [StorageProvider] is the type of provider used for storage. *)
Definition StorageProvider : Type := string.

Definition S3 : StorageProvider := "S3".
Definition GCS : StorageProvider := "GCS".
Definition AZURE : StorageProvider := "AZURE".

(** [StorageConfig] is the parent configuration: a type, which names the
    bucket storage implementation, and a configuration object specific to
    it.  [Config] has Go type [interface{}]: [None] is nil, and [Node] is the
    type of the values the YAML decoder builds. *)
Record StorageConfig (Node : Type) : Type := {
  Type_ : StorageProvider;
  Config : option Node
}.

Arguments Type_ {Node} _.
Arguments Config {Node} _.

(** [&StorageConfig{}] *)
Definition zeroStorageConfig {Node : Type} : StorageConfig Node :=
  {| Type_ := ""; Config := None |}.

(** The part of [v1.Namespace] that is read: [ObjectMeta.UID]. *)
Record Namespace : Type := { UID : string }.

(** [v1.NamespaceInterface], of which [Get] is called; the context and the
    options are fixed by the caller.  A call yields a namespace or a non-nil
    error. *)
Record NamespaceInterface : Type := {
  Get : string -> Namespace + error
}.

(** What this file takes from outside: package yaml, the three storage
    constructors of package storage, [env.GetClusterID] and the Unicode
    tables behind [strings.ToUpper].  [Impl] is the type of non-nil
    [Storage] values; a nil [Storage] is [None]. *)
Class Collaborators : Type := {
  Node : Type;
  Impl : Type;
  yaml_UnmarshalStrict :
    bytes -> StorageConfig Node -> StorageConfig Node * option error;
  yaml_Marshal : option Node -> bytes * option error;
  NewS3Storage : bytes -> option Impl * option error;
  NewGCSStorage : bytes -> option Impl * option error;
  NewAzureStorage : bytes -> option Impl * option error;
  env_GetClusterID : string;
  unicode_ToUpper : string -> string
}.

Definition Storage `{Collaborators} : Type := option Impl.

(** ** The functions of bucketstorage.go that use collaborators *)

Section BucketStorage.

Context `{C : Collaborators}.

Definition getClusterIdentifier (namespaces : NamespaceInterface) : M string :=
  let clusterID := env_GetClusterID in
  emit (NamespaceGet "kube-system") ;;;
  match Get namespaces "kube-system" with
  | inr err =>
      emit (LogErrorf ("Unable to get kube-system namespace: " ++ errors.Error err)) ;;;
      ret ""
  | inl ns =>
      if negb (clusterID =? "")%string then
        prefix <- lift (slice_to (UID ns) 5) ;;
        ret (prefix ++ "-" ++ clusterID)
      else
        lift (slice_to (UID ns) 10)
  end.

(** The statements after the [switch] of [NewBucketStorage]. *)
Definition afterSwitch (ty : StorageProvider) (r : Storage * option error)
  : M (Storage * option error) :=
  let (storage, err) := r in
  match err with
  | Some _ => ret (None, errors.Wrap err ("create " ++ ty ++ " client"))
  | None => ret (storage, None)
  end.

(** The [switch] of [NewBucketStorage] over the upper-cased type, with the
    statements after it; [config] is the re-encoded nested configuration. *)
Definition switchProvider {N : Type} (storageConfig : StorageConfig N)
  (config : bytes) : M (Storage * option error) :=
  let tag := strings.ToUpper unicode_ToUpper (Type_ storageConfig) in
  if (tag =? S3)%string then
    emit (CallNewS3Storage config) ;;;
    afterSwitch (Type_ storageConfig) (NewS3Storage config)
  else if (tag =? GCS)%string then
    emit (CallNewGCSStorage config) ;;;
    afterSwitch (Type_ storageConfig) (NewGCSStorage config)
  else if (tag =? AZURE)%string then
    emit (CallNewAzureStorage config) ;;;
    afterSwitch (Type_ storageConfig) (NewAzureStorage config)
  else
    ret (None,
         errors.Errorf ("storage with type " ++ Type_ storageConfig
                        ++ " is not supported")).

(** [NewBucketStorage] initializes and returns a new [Storage]
    implementation leveraging the storage provider configuration. *)
Definition NewBucketStorage (namespaces : NamespaceInterface) (config : bytes)
  : M (Storage * option error) :=
  let (storageConfig, err) := yaml_UnmarshalStrict config zeroStorageConfig in
  match err with
  | Some _ => ret (None, errors.Wrap err "parsing config YAML file")
  | None =>
      let (config, err) := yaml_Marshal (Config storageConfig) in
      match err with
      | Some _ =>
          ret (None, errors.Wrap err "marshal content of storage configuration")
      | None =>
          clusterID <- getClusterIdentifier namespaces ;;
          emit (Println clusterID) ;;;
          switchProvider storageConfig config
      end
  end.

End BucketStorage.

(** ** Test doubles for the collaborators *)

Module Fake.

(** The clients the fake constructors build. *)
Inductive backend : Type :=
| S3Client (config : bytes)
| GCSClient (config : bytes)
| AzureClient (config : bytes).

(** A decoder that accepts every document as the envelope [ty], [payload]. *)
Definition decodes_to (ty : StorageProvider) (payload : string)
  (config : bytes) (into : StorageConfig string)
  : StorageConfig string * option error :=
  ({| Type_ := ty; Config := Some payload |}, None).

(** A decoder that rejects every document. *)
Definition rejects (msg : string) (config : bytes) (into : StorageConfig string)
  : StorageConfig string * option error :=
  (into, Some (CollaboratorError msg)).

Definition encodes (payload : option string) : bytes * option error :=
  match payload with
  | Some text => (list_byte_of_string text, None)
  | None => (list_byte_of_string "null", None)
  end.

Definition encode_fails (msg : string) (payload : option string)
  : bytes * option error :=
  ([], Some (CollaboratorError msg)).

(** A constructor that fails on an empty payload, and then hands back the
    client it had started to build together with the error. *)
Definition construct (client : bytes -> backend) (config : bytes)
  : option backend * option error :=
  match config with
  | [] => (Some (client []), Some (CollaboratorError "no bucket name"))
  | _ :: _ => (Some (client config), None)
  end.

Definition collaborators
  (decode : bytes -> StorageConfig string -> StorageConfig string * option error)
  (encode : option string -> bytes * option error)
  (clusterID : string) : Collaborators :=
  {| Node := string;
     Impl := backend;
     yaml_UnmarshalStrict := decode;
     yaml_Marshal := encode;
     NewS3Storage := construct S3Client;
     NewGCSStorage := construct GCSClient;
     NewAzureStorage := construct AzureClient;
     env_GetClusterID := clusterID;
     unicode_ToUpper := fun s => s |}.

(** A cluster whose kube-system namespace has the UID [uid]. *)
Definition cluster (uid : string) : NamespaceInterface :=
  {| Get := fun name =>
       if (name =? "kube-system")%string then inl {| UID := uid |}
       else inr (CollaboratorError ("namespaces " ++ name ++ " not found")) |}.

(** A UID as the API server assigns them. *)
Definition uid : string := "7e1a2b3c-4d5e-6f70-8192-a3b4c5d6e7f8".

(** A cluster that cannot be reached. *)
Definition unreachable : NamespaceInterface :=
  {| Get := fun _ => inr (CollaboratorError "connection refused") |}.

End Fake.

(** ** Vocabulary of the statements *)

(** The constructor calls among the effects of a run, in order. *)
Definition constructor_calls (tr : list event) : list event :=
  filter is_constructor_call tr.

(** The slice length [getClusterIdentifier] asks of the UID: 5 when the
    external cluster id is set, 10 when it is empty. *)
Definition sliceLength (clusterID : string) : Z :=
  if (clusterID =? "")%string then 10 else 5.

(** The lines a run wrote to the standard output, in order. *)
Fixpoint printed (tr : list event) : list string :=
  match tr with
  | [] => []
  | Println line :: tr' => line :: printed tr'
  | _ :: tr' => printed tr'
  end.

(** [n] calls of a path helper in sequence, each on what the one before
    returned. *)
Fixpoint iterate (n : nat) (f : string -> outcome string) (s : string)
  : outcome string :=
  match n with
  | O => Returns s
  | S n' => and_then (f s) (iterate n' f)
  end.

(** [n] separators. *)
Fixpoint slashes (n : nat) : string :=
  match n with
  | O => EmptyString
  | S n' => String slash (slashes n')
  end.

(** A string with a lower-case ASCII letter ([hasLower] in
    [strings.ToUpper]). *)
Fixpoint hasLower (s : string) : bool :=
  match s with
  | EmptyString => false
  | String a s' => strings.isLower a || hasLower s'
  end.

(** Two bytes that are equal, or the lower-case and the upper-case form of
    one ASCII letter. *)
Definition sameLetter (a b : ascii) : bool :=
  Ascii.eqb a b
  || (strings.isLower a && Ascii.eqb (strings.upperByte a) b)
  || (strings.isLower b && Ascii.eqb (strings.upperByte b) a).

(** Two strings that are equal up to the case of their ASCII letters. *)
Fixpoint equalFoldASCII (s t : string) : bool :=
  match s, t with
  | EmptyString, EmptyString => true
  | String a s', String b t' => sameLetter a b && equalFoldASCII s' t'
  | _, _ => false
  end.

(** The constructor the [switch] of [NewBucketStorage] calls on an
    upper-cased type, if any. *)
Definition constructorOf `{C : Collaborators} (tag : string)
  : option (bytes -> Storage * option error) :=
  if (tag =? S3)%string then Some NewS3Storage
  else if (tag =? GCS)%string then Some NewGCSStorage
  else if (tag =? AZURE)%string then Some NewAzureStorage
  else None.

(** What [NewBucketStorage] returns on the document [config], by the
    stage that produced it: the decoder failed; the encoder failed; the
    switch found no constructor for the type; the selected constructor
    failed; the selected constructor succeeded. *)
Inductive stage_outcome `{C : Collaborators} (config : bytes)
  : Storage -> option error -> Prop :=
| ParseFailed storageConfig cause :
    yaml_UnmarshalStrict config zeroStorageConfig
    = (storageConfig, Some cause) ->
    stage_outcome config None
      (Some (WithMessage cause "parsing config YAML file"))
| MarshalFailed storageConfig payload cause :
    yaml_UnmarshalStrict config zeroStorageConfig = (storageConfig, None) ->
    yaml_Marshal (Config storageConfig) = (payload, Some cause) ->
    stage_outcome config None
      (Some (WithMessage cause "marshal content of storage configuration"))
| Unsupported storageConfig payload :
    yaml_UnmarshalStrict config zeroStorageConfig = (storageConfig, None) ->
    yaml_Marshal (Config storageConfig) = (payload, None) ->
    constructorOf (strings.ToUpper unicode_ToUpper (Type_ storageConfig))
    = None ->
    stage_outcome config None
      (Some (FormattedError ("storage with type " ++ Type_ storageConfig
                             ++ " is not supported")))
| ConstructFailed storageConfig payload ctor built cause :
    yaml_UnmarshalStrict config zeroStorageConfig = (storageConfig, None) ->
    yaml_Marshal (Config storageConfig) = (payload, None) ->
    constructorOf (strings.ToUpper unicode_ToUpper (Type_ storageConfig))
    = Some ctor ->
    ctor payload = (built, Some cause) ->
    stage_outcome config None
      (Some (WithMessage cause
               ("create " ++ Type_ storageConfig ++ " client")))
| Constructed storageConfig payload ctor storage :
    yaml_UnmarshalStrict config zeroStorageConfig = (storageConfig, None) ->
    yaml_Marshal (Config storageConfig) = (payload, None) ->
    constructorOf (strings.ToUpper unicode_ToUpper (Type_ storageConfig))
    = Some ctor ->
    ctor payload = (storage, None) ->
    stage_outcome config storage None.

(** * Properties *)

(** ** Strings *)

Lemma len_nonneg (s : string) : 0 <= len s.
Proof. unfold len. lia. Qed.

Lemma len_String (a : ascii) (s : string) : len (String a s) = len s + 1.
Proof. unfold len. simpl String.length. lia. Qed.

Lemma len_app (s t : string) : len (s ++ t) = len s + len t.
Proof.
  induction s as [|a s IH]; cbn [append].
  - unfold len. cbn [String.length]. lia.
  - rewrite !len_String, IH. lia.
Qed.

Lemma drop_app_length (s t : string) : drop (String.length s) (s ++ t) = t.
Proof. induction s as [|a s IH]; simpl; auto. Qed.

Lemma take_app_length (s t : string) : take (String.length s) (s ++ t) = s.
Proof. induction s as [|a s IH]; simpl; [destruct t|]; congruence. Qed.

Lemma take_length_le (n : nat) (s : string) :
  (String.length (take n s) <= n)%nat.
Proof.
  revert s; induction n as [|n IH]; intros [|a s]; simpl; try lia.
  specialize (IH s). lia.
Qed.

Lemma take_drop (n : nat) (s : string) : take n s ++ drop n s = s.
Proof.
  revert s; induction n as [|n IH]; intros [|a s]; simpl; auto.
  now rewrite IH.
Qed.

Lemma take_length (n : nat) (s : string) :
  (n <= String.length s)%nat -> String.length (take n s) = n.
Proof.
  revert s; induction n as [|n IH]; intros [|a s]; simpl; try lia.
  intros H. rewrite IH; lia.
Qed.

Lemma ContainsByte_app (s t : string) (c : ascii) :
  strings.ContainsByte (s ++ t) c
  = strings.ContainsByte s c || strings.ContainsByte t c.
Proof.
  induction s as [|a s IH]; simpl; auto.
  now rewrite IH, orb_assoc.
Qed.

Lemma prefix_slash (a : ascii) (s : string) :
  String.prefix "/" (String a s) = Ascii.eqb a slash.
Proof.
  unfold slash. cbn [String.prefix].
  destruct (ascii_dec "/" a) as [<-|Hne].
  - rewrite Ascii.eqb_refl. destruct s; reflexivity.
  - symmetry. apply Ascii.eqb_neq. congruence.
Qed.

(** [strings.LastIndex(s, "/")] is -1 on a string without separator, and
    otherwise the position of a separator that no separator follows. *)
Lemma LastIndex_slash (s : string) :
  (strings.ContainsByte s slash = false /\ strings.LastIndex s "/" = -1)
  \/ (exists dir name,
        s = dir ++ String slash name
        /\ strings.ContainsByte name slash = false
        /\ strings.LastIndex s "/" = len dir).
Proof.
  induction s as [|a s IH].
  - left. split; reflexivity.
  - cbn [strings.LastIndex strings.ContainsByte].
    rewrite prefix_slash.
    destruct IH as [[Hno Hidx] | (dir & name & Hs & Hname & Hidx)].
    + rewrite Hidx, Hno. simpl (0 <=? -1).
      destruct (Ascii.eqb a slash) eqn:Ha.
      * right. apply Ascii.eqb_eq in Ha. subst a.
        exists "", s. repeat split; auto.
      * left. split; reflexivity.
    + right. exists (String a dir), name.
      rewrite Hidx.
      destruct (Z.leb_spec 0 (len dir)) as [_|Hlt];
        [|pose proof (len_nonneg dir); lia].
      rewrite len_String. subst s. repeat split; auto.
Qed.

(** ** [trimLeading] *)

Lemma trimLeading_cases (s : string) :
  trimLeading s
  = Returns match s with
            | String a s' => if Ascii.eqb a slash then s' else s
            | EmptyString => s
            end.
Proof.
  destruct s as [|a s]; [reflexivity|].
  unfold trimLeading. rewrite len_String.
  destruct (Z.eqb_spec (len s + 1) 0) as [H0|_];
    [pose proof (len_nonneg s); lia|].
  unfold index. rewrite len_String.
  destruct (Z.ltb_spec 0 (len s + 1)) as [_|H0];
    [|pose proof (len_nonneg s); lia].
  change (0 <=? 0) with true.
  cbn [andb Z.to_nat String.get].
  destruct (Ascii.eqb a slash); [|reflexivity].
  unfold slice_from. rewrite len_String.
  destruct (Z.leb_spec 1 (len s + 1)) as [_|H0];
    [|pose proof (len_nonneg s); lia].
  reflexivity.
Qed.

(** C2 as stated fails: applying [trimLeading] twice to a path that starts
    with two separators removes both, applying it once removes one. *)
Lemma trimLeading_twice_differs :
  trimLeading "//a" = Returns "/a"
  /\ and_then (trimLeading "//a") trimLeading = Returns "a"
  /\ ~ (forall s : string,
          and_then (trimLeading s) trimLeading = trimLeading s).
Proof.
  split; [reflexivity|]. split; [reflexivity|].
  intros H. specialize (H "//a"). discriminate H.
Qed.

(** C2, amended: [trimLeading] removes one leading separator, so applying
    it twice yields the same result as once on every path that does not
    start with two separators. *)
Theorem trimLeading_idempotent_single_separator (s : string) :
  String.prefix "//" s = false ->
  and_then (trimLeading s) trimLeading = trimLeading s.
Proof.
  intros Hs. rewrite (trimLeading_cases s). cbn [and_then].
  destruct s as [|a s]; [reflexivity|].
  destruct (Ascii.eqb a slash) eqn:Ha; rewrite trimLeading_cases.
  - apply Ascii.eqb_eq in Ha. subst a.
    destruct s as [|b s]; [reflexivity|].
    destruct (Ascii.eqb b slash) eqn:Hb; [|reflexivity].
    apply Ascii.eqb_eq in Hb. subst b.
    exfalso. revert Hs. unfold slash. cbn [String.prefix].
    destruct (ascii_dec "/" "/") as [_|Hne]; [|congruence].
    destruct s; discriminate.
  - now rewrite Ha.
Qed.

(** The path "/a/b". *)
Lemma trimLeading_idempotent_single_separator_witness :
  String.prefix "//" "/a/b" = false
  /\ and_then (trimLeading "/a/b") trimLeading = trimLeading "/a/b".
Proof.
  split; [reflexivity|].
  apply (trimLeading_idempotent_single_separator "/a/b"). reflexivity.
Defined.

(** On a path that starts with two separators the second application
    removes one more. *)
Lemma trimLeading_double_separator (s : string) :
  trimLeading ("//" ++ s) = Returns ("/" ++ s)
  /\ and_then (trimLeading ("//" ++ s)) trimLeading = Returns s.
Proof.
  rewrite (trimLeading_cases ("//" ++ s)). cbn [append and_then].
  unfold slash. rewrite Ascii.eqb_refl.
  rewrite trimLeading_cases. rewrite Ascii.eqb_refl. split; reflexivity.
Qed.

(** ** [trimName] *)

Lemma LastIndex_no_slash (s : string) :
  strings.ContainsByte s slash = false -> strings.LastIndex s "/" = -1.
Proof.
  induction s as [|a s IH]; [reflexivity|].
  cbn [strings.ContainsByte strings.LastIndex]. rewrite prefix_slash.
  intros H. apply orb_false_iff in H as [Ha Hs].
  rewrite (IH Hs), Ha. reflexivity.
Qed.

Lemma LastIndex_split (dir name : string) :
  strings.ContainsByte name slash = false ->
  strings.LastIndex (dir ++ String slash name) "/" = len dir.
Proof.
  intros Hname. induction dir as [|a dir IH].
  - cbn [append strings.LastIndex]. rewrite prefix_slash.
    rewrite (LastIndex_no_slash name Hname).
    unfold slash. rewrite Ascii.eqb_refl. reflexivity.
  - cbn [append strings.LastIndex]. rewrite IH.
    destruct (Z.leb_spec 0 (len dir)) as [_|Hlt];
      [|pose proof (len_nonneg dir); lia].
    now rewrite len_String.
Qed.

Lemma drop_past_separator (dir name : string) (c : ascii) :
  drop (S (String.length dir)) (dir ++ String c name) = name.
Proof. induction dir as [|a dir IH]; cbn [append String.length drop]; auto. Qed.

Lemma trimName_no_slash (file : string) :
  strings.ContainsByte file slash = false -> trimName file = Returns file.
Proof.
  intros H. unfold trimName. now rewrite (LastIndex_no_slash file H).
Qed.

Lemma trimName_split (dir name : string) :
  strings.ContainsByte name slash = false ->
  trimName (dir ++ String slash name) = Returns name.
Proof.
  intros H. unfold trimName. rewrite (LastIndex_split dir name H).
  pose proof (len_nonneg dir) as Hdir.
  destruct (Z.ltb_spec (len dir) 0) as [Hneg|_]; [lia|].
  unfold slice_from. rewrite len_app, len_String.
  pose proof (len_nonneg name) as Hname.
  destruct (Z.leb_spec 0 (len dir + 1)) as [_|Hneg]; [|lia].
  destruct (Z.leb_spec (len dir + 1) (len dir + (len name + 1))) as [_|Hneg];
    [|lia].
  cbn [andb]. f_equal.
  replace (Z.to_nat (len dir + 1)) with (S (String.length dir))
    by (unfold len; lia).
  apply drop_past_separator.
Qed.

Lemma split_at_last_slash (file : string) :
  strings.ContainsByte file slash = true ->
  exists dir name,
    file = dir ++ String slash name
    /\ strings.ContainsByte name slash = false.
Proof.
  intros H.
  destruct (LastIndex_slash file) as [[Hno _] | (dir & name & Hs & Hname & _)].
  - congruence.
  - now exists dir, name.
Qed.

(** C9: on a path that contains a separator [trimName] returns what
    follows the last separator, a name without separator; a path without
    separator is returned unchanged. *)
Theorem trimName_base_name (file : string) :
  (strings.ContainsByte file slash = true ->
   exists dir name,
     file = dir ++ "/" ++ name
     /\ strings.ContainsByte name slash = false
     /\ trimName file = Returns name)
  /\ (strings.ContainsByte file slash = false -> trimName file = Returns file)
  /\ trimName "a/b/c" = Returns "c"
  /\ trimName "c" = Returns "c".
Proof.
  split; [|split; [apply trimName_no_slash | split; reflexivity]].
  intros H. destruct (split_at_last_slash file H) as (dir & name & -> & Hname).
  exists dir, name. repeat split; auto using trimName_split.
Qed.

(** The object key "bucket/etl/2024.json". *)
Lemma trimName_base_name_witness :
  strings.ContainsByte "bucket/etl/2024.json" slash = true
  /\ exists dir name,
       "bucket/etl/2024.json" = dir ++ "/" ++ name
       /\ strings.ContainsByte name slash = false
       /\ trimName "bucket/etl/2024.json" = Returns name.
Proof.
  split; [reflexivity|].
  apply (proj1 (trimName_base_name "bucket/etl/2024.json")). reflexivity.
Defined.

(** C10: the result of [trimName] never contains the separator, so
    [trimName] is idempotent on every input. *)
Theorem trimName_idempotent (s : string) :
  and_then (trimName s) trimName = trimName s
  /\ exists name,
       trimName s = Returns name
       /\ strings.ContainsByte name slash = false.
Proof.
  destruct (strings.ContainsByte s slash) eqn:Hs.
  - destruct (split_at_last_slash s Hs) as (dir & name & -> & Hname).
    rewrite (trimName_split dir name Hname). cbn [and_then].
    split; [now apply trimName_no_slash | now exists name].
  - rewrite (trimName_no_slash s Hs). cbn [and_then].
    split; [now apply trimName_no_slash | now exists s].
Qed.

(** ** Slicing *)

Lemma slice_to_prefix (prefix rest : string) :
  slice_to (prefix ++ rest) (len prefix) = Returns prefix.
Proof.
  unfold slice_to. rewrite len_app.
  pose proof (len_nonneg prefix). pose proof (len_nonneg rest).
  destruct (Z.leb_spec 0 (len prefix)) as [_|Hneg]; [|lia].
  destruct (Z.leb_spec (len prefix) (len prefix + len rest)) as [_|Hneg];
    [|lia].
  cbn [andb]. unfold len. rewrite Nat2Z.id. f_equal. apply take_app_length.
Qed.

Lemma slice_to_short (s : string) (hi : Z) :
  len s < hi -> slice_to s hi = Panics (SliceBoundsOutOfRange hi (len s)).
Proof.
  intros H. unfold slice_to.
  destruct (Z.leb_spec hi (len s)) as [Hle|_]; [lia|].
  now rewrite andb_false_r.
Qed.

Lemma slice_to_long (s : string) (hi : Z) :
  0 <= hi <= len s -> slice_to s hi = Returns (take (Z.to_nat hi) s).
Proof.
  intros [H0 H]. unfold slice_to.
  destruct (Z.leb_spec 0 hi) as [_|Hneg]; [|lia].
  destruct (Z.leb_spec hi (len s)) as [_|Hgt]; [|lia].
  reflexivity.
Qed.

(** ** [getClusterIdentifier] *)

Section ClusterIdentifier.

Context `{C : Collaborators}.
Variable namespaces : NamespaceInterface.

Lemma getClusterIdentifier_lookup_failed (err : error) :
  Get namespaces "kube-system" = inr err ->
  getClusterIdentifier namespaces
  = ([NamespaceGet "kube-system";
      LogErrorf ("Unable to get kube-system namespace: " ++ errors.Error err)],
     Returns "").
Proof. intros H. unfold getClusterIdentifier. now rewrite H. Qed.

Lemma getClusterIdentifier_found (ns : Namespace) :
  Get namespaces "kube-system" = inl ns ->
  getClusterIdentifier namespaces
  = ([NamespaceGet "kube-system"],
     if (env_GetClusterID =? "")%string then slice_to (UID ns) 10
     else and_then (slice_to (UID ns) 5)
            (fun prefix => Returns (prefix ++ "-" ++ env_GetClusterID))).
Proof.
  intros H. unfold getClusterIdentifier. rewrite H.
  destruct (env_GetClusterID =? "")%string; cbn [negb].
  - destruct (slice_to (UID ns) 10); reflexivity.
  - destruct (slice_to (UID ns) 5); reflexivity.
Qed.

(** A UID shorter than the slice length makes the slice expression
    panic. *)
Lemma getClusterIdentifier_short_uid (ns : Namespace) :
  Get namespaces "kube-system" = inl ns ->
  len (UID ns) < sliceLength env_GetClusterID ->
  result (getClusterIdentifier namespaces)
  = Panics (SliceBoundsOutOfRange (sliceLength env_GetClusterID)
              (len (UID ns))).
Proof.
  intros H Hlen. rewrite (getClusterIdentifier_found ns H).
  unfold result, sliceLength in *. cbn [snd].
  destruct (env_GetClusterID =? "")%string;
    now rewrite (slice_to_short _ _ Hlen).
Qed.

(** The derivation returns exactly when the lookup failed or the UID has
    the characters the slice asks for. *)
Lemma getClusterIdentifier_returns_iff :
  returns (result (getClusterIdentifier namespaces)) = true
  <-> match Get namespaces "kube-system" with
      | inr _ => True
      | inl ns => sliceLength env_GetClusterID <= len (UID ns)
      end.
Proof.
  destruct (Get namespaces "kube-system") as [ns|err] eqn:H.
  - rewrite (getClusterIdentifier_found ns H).
    unfold result, sliceLength. cbn [snd].
    destruct (env_GetClusterID =? "")%string.
    + destruct (Z.le_gt_cases 10 (len (UID ns))) as [Hle|Hgt].
      * rewrite slice_to_long by lia. now split.
      * rewrite slice_to_short by lia. split; [discriminate | lia].
    + destruct (Z.le_gt_cases 5 (len (UID ns))) as [Hle|Hgt].
      * rewrite slice_to_long by lia. now split.
      * rewrite slice_to_short by lia. split; [discriminate | lia].
  - rewrite (getClusterIdentifier_lookup_failed err H). now split.
Qed.

(** C4: with an external cluster id the identifier is the first 5
    characters of the kube-system UID, then "-", then the external id;
    without one it is the first 10 characters of the UID. *)
Theorem getClusterIdentifier_derivation (prefix rest : string) :
  Get namespaces "kube-system" = inl {| UID := prefix ++ rest |} ->
  (env_GetClusterID <> "" ->
   String.length prefix = 5%nat ->
   result (getClusterIdentifier namespaces)
   = Returns (prefix ++ "-" ++ env_GetClusterID))
  /\ (env_GetClusterID = "" ->
      String.length prefix = 10%nat ->
      result (getClusterIdentifier namespaces) = Returns prefix).
Proof.
  intros H. rewrite (getClusterIdentifier_found _ H).
  unfold result. cbn [snd UID].
  split; intros Hid Hlen.
  - apply String.eqb_neq in Hid. rewrite Hid.
    replace 5 with (len prefix) by (unfold len; lia).
    now rewrite slice_to_prefix.
  - rewrite Hid. cbn [String.eqb].
    replace 10 with (len prefix) by (unfold len; lia).
    apply slice_to_prefix.
Qed.

End ClusterIdentifier.

(** The external id "prod" and the UID "abcdefghijklmnop" give
    "abcde-prod"; the empty external id gives "abcdefghij". *)
Lemma getClusterIdentifier_derivation_witness :
  (let C := Fake.collaborators (Fake.rejects "EOF") Fake.encodes "prod" in
   result (getClusterIdentifier (Fake.cluster "abcdefghijklmnop"))
   = Returns "abcde-prod")
  /\ (let C := Fake.collaborators (Fake.rejects "EOF") Fake.encodes "" in
      result (getClusterIdentifier (Fake.cluster "abcdefghijklmnop"))
      = Returns "abcdefghij").
Proof.
  split; intros C.
  - refine (proj1 (getClusterIdentifier_derivation
                     (Fake.cluster "abcdefghijklmnop")
                     "abcde" "fghijklmnop" eq_refl) _ eq_refl).
    discriminate.
  - exact (proj2 (getClusterIdentifier_derivation
                    (Fake.cluster "abcdefghijklmnop")
                    "abcdefghij" "klmnop" eq_refl) eq_refl eq_refl).
Defined.

(** C1 fails on the code: a UID of two characters makes the fixed-size
    slice panic, with and without an external cluster id, and the panic
    unwinds [NewBucketStorage]. *)
Lemma getClusterIdentifier_short_uid_panics :
  (let C := Fake.collaborators (Fake.decodes_to "s3" "bucket: x") Fake.encodes
              "" in
   getClusterIdentifier (Fake.cluster "ab")
   = ([NamespaceGet "kube-system"], Panics (SliceBoundsOutOfRange 10 2))
   /\ NewBucketStorage (Fake.cluster "ab") []
      = ([NamespaceGet "kube-system"], Panics (SliceBoundsOutOfRange 10 2)))
  /\ (let C := Fake.collaborators (Fake.decodes_to "s3" "bucket: x")
                 Fake.encodes "prod" in
      getClusterIdentifier (Fake.cluster "ab")
      = ([NamespaceGet "kube-system"], Panics (SliceBoundsOutOfRange 5 2))
      /\ NewBucketStorage (Fake.cluster "ab") []
         = ([NamespaceGet "kube-system"], Panics (SliceBoundsOutOfRange 5 2))).
Proof. repeat split. Qed.

(** ** [NewBucketStorage] *)

Section Dispatch.

Context `{C : Collaborators}.

Lemma afterSwitch_pure (ty : StorageProvider) (r : Storage * option error) :
  afterSwitch ty r
  = ([], Returns match snd r with
                 | Some cause =>
                     (None, Some (WithMessage cause ("create " ++ ty ++ " client")))
                 | None => (fst r, None)
                 end).
Proof. destruct r as [storage [cause|]]; reflexivity. Qed.

Lemma called_then_afterSwitch (call : event) (ty : StorageProvider)
  (r : Storage * option error) :
  (emit call ;;; afterSwitch ty r)
  = ([call], result (afterSwitch ty r)).
Proof. rewrite afterSwitch_pure. reflexivity. Qed.

Lemma switchProvider_S3 {N : Type} (sc : StorageConfig N) (payload : bytes) :
  strings.ToUpper unicode_ToUpper (Type_ sc) = "S3" ->
  switchProvider sc payload
  = ([CallNewS3Storage payload],
     result (afterSwitch (Type_ sc) (NewS3Storage payload))).
Proof.
  intros H. unfold switchProvider. rewrite H. cbn [String.eqb S3].
  change ("S3" =? "S3")%string with true. cbn iota.
  apply called_then_afterSwitch.
Qed.

Lemma switchProvider_GCS {N : Type} (sc : StorageConfig N) (payload : bytes) :
  strings.ToUpper unicode_ToUpper (Type_ sc) = "GCS" ->
  switchProvider sc payload
  = ([CallNewGCSStorage payload],
     result (afterSwitch (Type_ sc) (NewGCSStorage payload))).
Proof.
  intros H. unfold switchProvider. rewrite H.
  change ("GCS" =? S3)%string with false.
  change ("GCS" =? GCS)%string with true. cbn iota.
  apply called_then_afterSwitch.
Qed.

Lemma switchProvider_AZURE {N : Type} (sc : StorageConfig N)
  (payload : bytes) :
  strings.ToUpper unicode_ToUpper (Type_ sc) = "AZURE" ->
  switchProvider sc payload
  = ([CallNewAzureStorage payload],
     result (afterSwitch (Type_ sc) (NewAzureStorage payload))).
Proof.
  intros H. unfold switchProvider. rewrite H.
  change ("AZURE" =? S3)%string with false.
  change ("AZURE" =? GCS)%string with false.
  change ("AZURE" =? AZURE)%string with true. cbn iota.
  apply called_then_afterSwitch.
Qed.

Lemma switchProvider_default {N : Type} (sc : StorageConfig N)
  (payload : bytes) :
  strings.ToUpper unicode_ToUpper (Type_ sc) <> "S3" ->
  strings.ToUpper unicode_ToUpper (Type_ sc) <> "GCS" ->
  strings.ToUpper unicode_ToUpper (Type_ sc) <> "AZURE" ->
  switchProvider sc payload
  = ([], Returns (None,
                  Some (FormattedError ("storage with type " ++ Type_ sc
                                        ++ " is not supported")))).
Proof.
  intros H1 H2 H3. unfold switchProvider.
  apply String.eqb_neq in H1, H2, H3.
  unfold S3, GCS, AZURE. now rewrite H1, H2, H3.
Qed.

(** The switch takes one of its four branches. *)
Lemma switchProvider_cases {N : Type} (sc : StorageConfig N) (payload : bytes) :
  let tag := strings.ToUpper unicode_ToUpper (Type_ sc) in
  tag = "S3" \/ tag = "GCS" \/ tag = "AZURE"
  \/ (tag <> "S3" /\ tag <> "GCS" /\ tag <> "AZURE").
Proof.
  intros tag.
  destruct (String.eqb_spec tag "S3"); auto.
  destruct (String.eqb_spec tag "GCS"); auto.
  destruct (String.eqb_spec tag "AZURE"); auto 6.
Qed.

(** The switch and the statements after it never panic. *)
Lemma switchProvider_returns {N : Type} (sc : StorageConfig N)
  (payload : bytes) :
  exists r, result (switchProvider sc payload) = Returns r.
Proof.
  destruct (switchProvider_cases sc payload) as [H|[H|[H|(H1 & H2 & H3)]]].
  - rewrite (switchProvider_S3 sc payload H), afterSwitch_pure.
    eexists; reflexivity.
  - rewrite (switchProvider_GCS sc payload H), afterSwitch_pure.
    eexists; reflexivity.
  - rewrite (switchProvider_AZURE sc payload H), afterSwitch_pure.
    eexists; reflexivity.
  - rewrite (switchProvider_default sc payload H1 H2 H3).
    eexists; reflexivity.
Qed.

(** The switch returns, and its only effect is the call of at most one
    constructor. *)
Lemma switchProvider_never_panics {N : Type} (sc : StorageConfig N)
  (payload : bytes) :
  returns (result (switchProvider sc payload)) = true
  /\ constructor_calls (trace (switchProvider sc payload))
     = trace (switchProvider sc payload)
  /\ (length (trace (switchProvider sc payload)) <= 1)%nat.
Proof.
  destruct (switchProvider_cases sc payload) as [H|[H|[H|(H1 & H2 & H3)]]].
  - rewrite (switchProvider_S3 sc payload H), afterSwitch_pure.
    repeat split; cbn; lia.
  - rewrite (switchProvider_GCS sc payload H), afterSwitch_pure.
    repeat split; cbn; lia.
  - rewrite (switchProvider_AZURE sc payload H), afterSwitch_pure.
    repeat split; cbn; lia.
  - rewrite (switchProvider_default sc payload H1 H2 H3).
    repeat split; cbn; lia.
Qed.

Lemma getClusterIdentifier_no_constructor_call (namespaces : NamespaceInterface) :
  constructor_calls (trace (getClusterIdentifier namespaces)) = [].
Proof.
  destruct (Get namespaces "kube-system") as [ns|err] eqn:H.
  - now rewrite (getClusterIdentifier_found namespaces ns H).
  - now rewrite (getClusterIdentifier_lookup_failed namespaces err H).
Qed.

Section Decoded.

Variable namespaces : NamespaceInterface.
Variable config : bytes.
Variable storageConfig : StorageConfig Node.
Variable payload : bytes.

Hypothesis decoded :
  yaml_UnmarshalStrict config zeroStorageConfig = (storageConfig, None).
Hypothesis encoded :
  yaml_Marshal (Config storageConfig) = (payload, None).

(** Once the envelope is decoded and its payload re-encoded, the run is
    the derivation of the identifier, the print, and the switch. *)
Lemma NewBucketStorage_run (tr : list event) (clusterID : string) :
  getClusterIdentifier namespaces = (tr, Returns clusterID) ->
  NewBucketStorage namespaces config
  = ((tr ++ Println clusterID :: trace (switchProvider storageConfig payload))%list,
     result (switchProvider storageConfig payload)).
Proof.
  intros H. unfold NewBucketStorage. rewrite decoded, encoded, H.
  unfold bind, emit, trace, result.
  destruct (switchProvider storageConfig payload) as [tr' r]. reflexivity.
Qed.

Lemma NewBucketStorage_panics (tr : list event) (e : runtime_error) :
  getClusterIdentifier namespaces = (tr, Panics e) ->
  NewBucketStorage namespaces config = (tr, Panics e).
Proof.
  intros H. unfold NewBucketStorage. now rewrite decoded, encoded, H.
Qed.

Lemma derivation_returned :
  returns (result (getClusterIdentifier namespaces)) = true ->
  exists tr clusterID,
    getClusterIdentifier namespaces = (tr, Returns clusterID)
    /\ constructor_calls tr = [].
Proof.
  pose proof (getClusterIdentifier_no_constructor_call namespaces) as Hcalls.
  destruct (getClusterIdentifier namespaces) as [tr [clusterID|e]];
    [|discriminate].
  intros _. now exists tr, clusterID.
Qed.

Lemma constructor_calls_run (tr tr' : list event) (clusterID : string) :
  constructor_calls tr = [] ->
  constructor_calls (tr ++ Println clusterID :: tr') = constructor_calls tr'.
Proof.
  intros H. unfold constructor_calls in *.
  now rewrite filter_app, H.
Qed.

(** When the derivation returns, the constructor calls and the result of
    [NewBucketStorage] are those of its switch. *)
Lemma NewBucketStorage_switch :
  returns (result (getClusterIdentifier namespaces)) = true ->
  constructor_calls (trace (NewBucketStorage namespaces config))
  = constructor_calls (trace (switchProvider storageConfig payload))
  /\ result (NewBucketStorage namespaces config)
     = result (switchProvider storageConfig payload).
Proof.
  intros Hret.
  destruct (derivation_returned Hret) as (tr & clusterID & Hrun & Hcalls).
  rewrite (NewBucketStorage_run tr clusterID Hrun).
  split; [|reflexivity].
  unfold trace at 1. cbn [fst]. now apply constructor_calls_run.
Qed.

(** C6: whatever the letter case of the decoded type, when its upper-case
    form is S3, GCS or AZURE the matching constructor, and no other, is
    called with the re-encoded payload, and its result is what the
    statements after the switch return. *)
Theorem dispatch_case_insensitive :
  returns (result (getClusterIdentifier namespaces)) = true ->
  let tag := strings.ToUpper unicode_ToUpper (Type_ storageConfig) in
  (tag = "S3" ->
   constructor_calls (trace (NewBucketStorage namespaces config))
   = [CallNewS3Storage payload]
   /\ result (NewBucketStorage namespaces config)
      = result (afterSwitch (Type_ storageConfig) (NewS3Storage payload)))
  /\ (tag = "GCS" ->
      constructor_calls (trace (NewBucketStorage namespaces config))
      = [CallNewGCSStorage payload]
      /\ result (NewBucketStorage namespaces config)
         = result (afterSwitch (Type_ storageConfig) (NewGCSStorage payload)))
  /\ (tag = "AZURE" ->
      constructor_calls (trace (NewBucketStorage namespaces config))
      = [CallNewAzureStorage payload]
      /\ result (NewBucketStorage namespaces config)
         = result (afterSwitch (Type_ storageConfig)
                     (NewAzureStorage payload))).
Proof.
  intros Hret tag.
  destruct (NewBucketStorage_switch Hret) as [-> ->].
  split; [|split]; intros H.
  - now rewrite (switchProvider_S3 storageConfig payload H).
  - now rewrite (switchProvider_GCS storageConfig payload H).
  - now rewrite (switchProvider_AZURE storageConfig payload H).
Qed.

(** C7: a decoded type whose upper-case form is none of S3, GCS and AZURE
    is rejected with an error that names the type as written; the storage
    is nil and no constructor is called. *)
Theorem unsupported_provider_rejected :
  returns (result (getClusterIdentifier namespaces)) = true ->
  strings.ToUpper unicode_ToUpper (Type_ storageConfig) <> "S3" ->
  strings.ToUpper unicode_ToUpper (Type_ storageConfig) <> "GCS" ->
  strings.ToUpper unicode_ToUpper (Type_ storageConfig) <> "AZURE" ->
  exists err,
    result (NewBucketStorage namespaces config) = Returns (None, Some err)
    /\ errors.Error err
       = "storage with type " ++ Type_ storageConfig ++ " is not supported"
    /\ errors.contexts err = []
    /\ constructor_calls (trace (NewBucketStorage namespaces config)) = [].
Proof.
  intros Hret H1 H2 H3.
  destruct (NewBucketStorage_switch Hret) as [-> ->].
  rewrite (switchProvider_default storageConfig payload H1 H2 H3).
  eexists. repeat split.
Qed.

End Decoded.

Lemma NewBucketStorage_parse_failed (namespaces : NamespaceInterface)
  (config : bytes) (storageConfig : StorageConfig Node) (cause : error) :
  yaml_UnmarshalStrict config zeroStorageConfig = (storageConfig, Some cause) ->
  NewBucketStorage namespaces config
  = ([], Returns (None, Some (WithMessage cause "parsing config YAML file"))).
Proof. intros H. unfold NewBucketStorage. now rewrite H. Qed.

Lemma NewBucketStorage_marshal_failed (namespaces : NamespaceInterface)
  (config : bytes) (storageConfig : StorageConfig Node) (payload : bytes)
  (cause : error) :
  yaml_UnmarshalStrict config zeroStorageConfig = (storageConfig, None) ->
  yaml_Marshal (Config storageConfig) = (payload, Some cause) ->
  NewBucketStorage namespaces config
  = ([], Returns (None,
                  Some (WithMessage cause
                          "marshal content of storage configuration"))).
Proof. intros H1 H2. unfold NewBucketStorage. now rewrite H1, H2. Qed.

(** C3, amended: a document the strict decoder rejects yields the
    decoder's error wrapped with "parsing config YAML file", and a nested
    configuration that cannot be re-encoded yields the encoder's error
    wrapped with "marshal content of storage configuration"; either way
    the storage is nil and the run has no effect: no lookup, no print, no
    constructor call. *)
Theorem decode_errors_wrapped (namespaces : NamespaceInterface)
  (config : bytes) (storageConfig : StorageConfig Node) :
  (forall cause,
     yaml_UnmarshalStrict config zeroStorageConfig
     = (storageConfig, Some cause) ->
     NewBucketStorage namespaces config
     = ([], Returns (None,
                     Some (WithMessage cause "parsing config YAML file"))))
  /\ (forall payload cause,
       yaml_UnmarshalStrict config zeroStorageConfig = (storageConfig, None) ->
       yaml_Marshal (Config storageConfig) = (payload, Some cause) ->
       NewBucketStorage namespaces config
       = ([], Returns (None,
                       Some (WithMessage cause
                               "marshal content of storage configuration")))).
Proof.
  split.
  - intros cause. apply NewBucketStorage_parse_failed.
  - intros payload cause. apply NewBucketStorage_marshal_failed.
Qed.

(** C5: when the lookup of kube-system fails, the derivation logs the
    failure and returns the empty string, and [NewBucketStorage] goes on:
    it prints the empty identifier, runs its switch and returns what the
    switch returns. *)
Theorem lookup_failure_not_fatal (namespaces : NamespaceInterface)
  (err : error) :
  Get namespaces "kube-system" = inr err ->
  getClusterIdentifier namespaces
  = ([NamespaceGet "kube-system";
      LogErrorf ("Unable to get kube-system namespace: " ++ errors.Error err)],
     Returns "")
  /\ forall config storageConfig payload,
       yaml_UnmarshalStrict config zeroStorageConfig = (storageConfig, None) ->
       yaml_Marshal (Config storageConfig) = (payload, None) ->
       exists r,
         result (switchProvider storageConfig payload) = Returns r
         /\ NewBucketStorage namespaces config
            = ([NamespaceGet "kube-system";
                LogErrorf ("Unable to get kube-system namespace: "
                           ++ errors.Error err);
                Println ""]
               ++ trace (switchProvider storageConfig payload),
               Returns r)%list.
Proof.
  intros H.
  pose proof (getClusterIdentifier_lookup_failed namespaces err H) as Hrun.
  split; [exact Hrun|].
  intros config storageConfig payload Hdec Henc.
  destruct (switchProvider_returns storageConfig payload) as [r Hr].
  exists r. split; [exact Hr|].
  rewrite (NewBucketStorage_run namespaces config storageConfig payload
             Hdec Henc _ _ Hrun).
  now rewrite Hr.
Qed.

End Dispatch.

(** ** The theorems at concrete collaborators *)

(** C3 as stated fails: the contexts the errors carry are those of the
    code, not "parsing config document" and "marshal nested storage
    configuration". *)
Lemma decode_error_contexts_differ :
  (let C := Fake.collaborators (Fake.rejects "yaml: unmarshal errors")
              Fake.encodes "" in
   result (NewBucketStorage (Fake.cluster Fake.uid) [])
   = Returns (None,
              Some (WithMessage (CollaboratorError "yaml: unmarshal errors")
                      "parsing config YAML file")))
  /\ (let C := Fake.collaborators (Fake.decodes_to "s3" "bucket: x")
                 (Fake.encode_fails "yaml: cannot marshal") "" in
      result (NewBucketStorage (Fake.cluster Fake.uid) [])
      = Returns (None,
                 Some (WithMessage (CollaboratorError "yaml: cannot marshal")
                         "marshal content of storage configuration")))
  /\ ~ (forall (C : Collaborators) namespaces config storageConfig cause,
          yaml_UnmarshalStrict config zeroStorageConfig
          = (storageConfig, Some cause) ->
          result (NewBucketStorage namespaces config)
          = Returns (None, Some (WithMessage cause "parsing config document")))
  /\ ~ (forall (C : Collaborators) namespaces config storageConfig payload
               cause,
          yaml_UnmarshalStrict config zeroStorageConfig
          = (storageConfig, None) ->
          yaml_Marshal (Config storageConfig) = (payload, Some cause) ->
          result (NewBucketStorage namespaces config)
          = Returns (None,
                     Some (WithMessage cause
                             "marshal nested storage configuration"))).
Proof.
  split; [reflexivity|]. split; [reflexivity|]. split.
  - intros H.
    specialize (H (Fake.collaborators (Fake.rejects "yaml: unmarshal errors")
                     Fake.encodes "")
                  (Fake.cluster Fake.uid) [] zeroStorageConfig
                  (CollaboratorError "yaml: unmarshal errors") eq_refl).
    discriminate H.
  - intros H.
    specialize (H (Fake.collaborators (Fake.decodes_to "s3" "bucket: x")
                     (Fake.encode_fails "yaml: cannot marshal") "")
                  (Fake.cluster Fake.uid) [] _ []
                  (CollaboratorError "yaml: cannot marshal")
                  eq_refl eq_refl).
    discriminate H.
Qed.

(** The two early returns, at a decoder that rejects the document and at
    an encoder that fails. *)
Lemma decode_errors_wrapped_witness :
  (let C := Fake.collaborators (Fake.rejects "yaml: unmarshal errors")
              Fake.encodes "" in
   NewBucketStorage (Fake.cluster Fake.uid) []
   = ([], Returns (None,
                   Some (WithMessage
                           (CollaboratorError "yaml: unmarshal errors")
                           "parsing config YAML file"))))
  /\ (let C := Fake.collaborators (Fake.decodes_to "s3" "bucket: x")
                 (Fake.encode_fails "yaml: cannot marshal") "" in
      NewBucketStorage (Fake.cluster Fake.uid) []
      = ([], Returns (None,
                      Some (WithMessage
                              (CollaboratorError "yaml: cannot marshal")
                              "marshal content of storage configuration")))).
Proof.
  split; intros C.
  - exact (proj1 (decode_errors_wrapped (Fake.cluster Fake.uid) []
                    zeroStorageConfig)
             (CollaboratorError "yaml: unmarshal errors") eq_refl).
  - exact (proj2 (decode_errors_wrapped (Fake.cluster Fake.uid) []
                    {| Type_ := "s3"; Config := Some "bucket: x" |})
             [] (CollaboratorError "yaml: cannot marshal") eq_refl eq_refl).
Defined.

(** An unreachable cluster with an S3 envelope: the failure is logged, the
    empty identifier printed, and the S3 constructor called. *)
Lemma lookup_failure_not_fatal_witness :
  let C := Fake.collaborators (Fake.decodes_to "s3" "bucket: x") Fake.encodes
             "prod" in
  Get Fake.unreachable "kube-system"
  = inr (CollaboratorError "connection refused")
  /\ getClusterIdentifier Fake.unreachable
     = ([NamespaceGet "kube-system";
         LogErrorf "Unable to get kube-system namespace: connection refused"],
        Returns "")
  /\ exists r,
       result (switchProvider {| Type_ := "s3"; Config := Some "bucket: x" |}
                 (list_byte_of_string "bucket: x"))
       = Returns r
       /\ NewBucketStorage Fake.unreachable []
          = ([NamespaceGet "kube-system";
              LogErrorf
                "Unable to get kube-system namespace: connection refused";
              Println "";
              CallNewS3Storage (list_byte_of_string "bucket: x")],
             Returns r).
Proof.
  intros C. split; [reflexivity|].
  pose (ok := lookup_failure_not_fatal Fake.unreachable
                (CollaboratorError "connection refused") eq_refl).
  split; [exact (proj1 ok)|].
  exact (proj2 ok [] {| Type_ := "s3"; Config := Some "bucket: x" |}
           (list_byte_of_string "bucket: x") eq_refl eq_refl).
Defined.

(** The types "s3", "Gcs" and "aZuRe" reach the S3, GCS and Azure
    constructors. *)
Lemma dispatch_case_insensitive_witness :
  (let C := Fake.collaborators (Fake.decodes_to "s3" "bucket: x") Fake.encodes
              "prod" in
   constructor_calls (trace (NewBucketStorage (Fake.cluster Fake.uid) []))
   = [CallNewS3Storage (list_byte_of_string "bucket: x")]
   /\ result (NewBucketStorage (Fake.cluster Fake.uid) [])
      = Returns (Some (Fake.S3Client (list_byte_of_string "bucket: x")), None))
  /\ (let C := Fake.collaborators (Fake.decodes_to "Gcs" "bucket: x")
                 Fake.encodes "prod" in
      constructor_calls (trace (NewBucketStorage (Fake.cluster Fake.uid) []))
      = [CallNewGCSStorage (list_byte_of_string "bucket: x")]
      /\ result (NewBucketStorage (Fake.cluster Fake.uid) [])
         = Returns (Some (Fake.GCSClient (list_byte_of_string "bucket: x")),
                    None))
  /\ (let C := Fake.collaborators (Fake.decodes_to "aZuRe" "container: x")
                 Fake.encodes "" in
      constructor_calls (trace (NewBucketStorage (Fake.cluster Fake.uid) []))
      = [CallNewAzureStorage (list_byte_of_string "container: x")]
      /\ result (NewBucketStorage (Fake.cluster Fake.uid) [])
         = Returns (Some (Fake.AzureClient
                            (list_byte_of_string "container: x")),
                    None)).
Proof.
  split; [|split]; intros C.
  - exact (proj1 (dispatch_case_insensitive (Fake.cluster Fake.uid) []
                    {| Type_ := "s3"; Config := Some "bucket: x" |}
                    (list_byte_of_string "bucket: x")
                    eq_refl eq_refl eq_refl) eq_refl).
  - exact (proj1 (proj2 (dispatch_case_insensitive (Fake.cluster Fake.uid) []
                           {| Type_ := "Gcs"; Config := Some "bucket: x" |}
                           (list_byte_of_string "bucket: x")
                           eq_refl eq_refl eq_refl)) eq_refl).
  - exact (proj2 (proj2 (dispatch_case_insensitive (Fake.cluster Fake.uid) []
                           {| Type_ := "aZuRe";
                              Config := Some "container: x" |}
                           (list_byte_of_string "container: x")
                           eq_refl eq_refl eq_refl)) eq_refl).
Defined.

(** The type "unknown" is rejected by name. *)
Lemma unsupported_provider_rejected_witness :
  let C := Fake.collaborators (Fake.decodes_to "unknown" "bucket: x")
             Fake.encodes "prod" in
  exists err,
    result (NewBucketStorage (Fake.cluster Fake.uid) [])
    = Returns (None, Some err)
    /\ errors.Error err = "storage with type unknown is not supported"
    /\ errors.contexts err = []
    /\ constructor_calls (trace (NewBucketStorage (Fake.cluster Fake.uid) []))
       = [].
Proof.
  intros C.
  refine (unsupported_provider_rejected (Fake.cluster Fake.uid) []
            {| Type_ := "unknown"; Config := Some "bucket: x" |}
            (list_byte_of_string "bucket: x")
            eq_refl eq_refl eq_refl _ _ _); discriminate.
Defined.

(** * Further properties of the path helpers *)

Lemma append_assoc (s t u : string) : (s ++ t) ++ u = s ++ (t ++ u).
Proof. induction s as [|a s IH]; cbn [append]; congruence. Qed.

Lemma prefix_slash_false (s : string) :
  String.prefix "/" s = false ->
  trimLeading s = Returns s.
Proof.
  intros H. rewrite trimLeading_cases.
  destruct s as [|a s]; [reflexivity|].
  rewrite prefix_slash in H. now rewrite H.
Qed.

Lemma no_slash_no_leading_slash (s : string) :
  strings.ContainsByte s slash = false -> String.prefix "/" s = false.
Proof.
  destruct s as [|a s]; [reflexivity|].
  rewrite prefix_slash. cbn [strings.ContainsByte].
  intros H. now apply orb_false_iff in H.
Qed.

(** What precedes a separator does not matter to [trimName]. *)
Lemma trimName_drop_directory (dir rest : string) :
  trimName (dir ++ String slash rest) = trimName rest.
Proof.
  destruct (strings.ContainsByte rest slash) eqn:Hrest.
  - destruct (split_at_last_slash rest Hrest) as (d & name & -> & Hname).
    rewrite (trimName_split d name Hname).
    change (String slash (d ++ String slash name))
      with (String slash d ++ String slash name).
    rewrite <- append_assoc. now apply trimName_split.
  - rewrite (trimName_no_slash rest Hrest). now apply trimName_split.
Qed.

(** X4: [trimLeading] never panics, the empty path included; it returns
    its argument without the leading separator when there is one, and its
    argument otherwise, so it shortens a path by at most one byte. *)
Theorem trimLeading_strips_one (s : string) :
  exists t,
    trimLeading s = Returns t
    /\ (if String.prefix "/" s then s = "/" ++ t else t = s)
    /\ len t = len s - (if String.prefix "/" s then 1 else 0).
Proof.
  rewrite trimLeading_cases.
  destruct s as [|a s].
  - exists "". repeat split.
  - rewrite prefix_slash. destruct (Ascii.eqb a slash) eqn:Ha.
    + apply Ascii.eqb_eq in Ha. subst a. exists s.
      split; [reflexivity|]. split; [reflexivity|].
      rewrite len_String. lia.
    + exists (String a s).
      split; [reflexivity|]. split; [reflexivity|]. lia.
Qed.

Lemma iterate_trimLeading_stable (m : nat) (s : string) :
  String.prefix "/" s = false -> iterate m trimLeading s = Returns s.
Proof.
  intros H. induction m as [|m IH]; [reflexivity|].
  cbn [iterate]. now rewrite (prefix_slash_false s H).
Qed.

(** X5: on a path with [n] leading separators, [n] or more calls of
    [trimLeading] in sequence strip exactly those separators. *)
Theorem trimLeading_iterated (s : string) (n m : nat) :
  String.prefix "/" s = false ->
  (n <= m)%nat ->
  iterate m trimLeading (slashes n ++ s) = Returns s.
Proof.
  intros Hs. revert m. induction n as [|n IH]; intros m Hnm.
  - now apply iterate_trimLeading_stable.
  - destruct m as [|m]; [lia|].
    cbn [iterate slashes append]. rewrite trimLeading_cases.
    unfold slash at 1. rewrite Ascii.eqb_refl. cbn [and_then].
    apply IH. lia.
Qed.

Lemma trimLeading_iterated_witness :
  String.prefix "/" "etl/bin" = false
  /\ (3 <= 4)%nat
  /\ iterate 4 trimLeading "///etl/bin" = Returns "etl/bin".
Proof.
  split; [reflexivity|]. split; [lia|].
  apply (trimLeading_iterated "etl/bin" 3 4); [reflexivity | lia].
Defined.

(** X6: [trimName] looks only at what follows a separator: the name of
    [dir/rest] is the name of [rest], and a path that ends in a separator
    has the empty name. *)
Theorem trimName_ignores_directory (dir rest : string) :
  trimName (dir ++ "/" ++ rest) = trimName rest
  /\ trimName (dir ++ "/") = Returns "".
Proof.
  split.
  - apply trimName_drop_directory.
  - apply (eq_trans (trimName_drop_directory dir "")). reflexivity.
Qed.

(** X7: [trimName] returns a suffix of its argument, and returns the
    whole argument exactly when it contains no separator. *)
Theorem trimName_suffix (s : string) :
  exists dir name,
    trimName s = Returns name
    /\ s = dir ++ name
    /\ (name = s <-> strings.ContainsByte s slash = false).
Proof.
  destruct (strings.ContainsByte s slash) eqn:Hs.
  - destruct (split_at_last_slash s Hs) as (d & name & -> & Hname).
    exists (d ++ "/"), name. rewrite (trimName_split d name Hname).
    split; [reflexivity|]. split.
    + now rewrite append_assoc.
    + split; [|discriminate].
      intros H. apply (f_equal len) in H.
      rewrite len_app, len_String in H.
      pose proof (len_nonneg d). lia.
  - exists "", s. rewrite (trimName_no_slash s Hs). repeat split.
Qed.

(** X8: the two helpers commute, and [trimName] absorbs [trimLeading]:
    in either order the result is the name [trimName] alone returns. *)
Theorem trimName_trimLeading_commute (s : string) :
  and_then (trimLeading s) trimName = trimName s
  /\ and_then (trimName s) trimLeading = trimName s.
Proof.
  split.
  - rewrite trimLeading_cases. cbn [and_then].
    destruct s as [|a s]; [reflexivity|].
    destruct (Ascii.eqb a slash) eqn:Ha; [|reflexivity].
    apply Ascii.eqb_eq in Ha. subst a.
    symmetry. apply (trimName_drop_directory "" s).
  - destruct (strings.ContainsByte s slash) eqn:Hs.
    + destruct (split_at_last_slash s Hs) as (d & name & -> & Hname).
      rewrite (trimName_split d name Hname). cbn [and_then].
      apply prefix_slash_false. now apply no_slash_no_leading_slash.
    + rewrite (trimName_no_slash s Hs). cbn [and_then].
      apply prefix_slash_false. now apply no_slash_no_leading_slash.
Qed.

(** * Further properties of [getClusterIdentifier] and [NewBucketStorage] *)

Lemma len_take (n : nat) (s : string) :
  Z.of_nat n <= len s -> len (take n s) = Z.of_nat n.
Proof. intros H. unfold len in *. rewrite take_length; lia. Qed.

Section Identifier.

Context `{C : Collaborators}.

(** X9: the identifier [getClusterIdentifier] returns is empty exactly
    when the lookup of kube-system failed; after a successful lookup it has
    10 bytes without an external cluster id, and 6 bytes more than the
    external id with one. *)
Theorem getClusterIdentifier_length (namespaces : NamespaceInterface)
  (id : string) :
  result (getClusterIdentifier namespaces) = Returns id ->
  match Get namespaces "kube-system" with
  | inr _ => id = ""
  | inl _ =>
      len id = if (env_GetClusterID =? "")%string then 10
               else 6 + len env_GetClusterID
  end
  /\ (id = "" <-> exists err, Get namespaces "kube-system" = inr err).
Proof.
  destruct (Get namespaces "kube-system") as [ns|err] eqn:H.
  - rewrite (getClusterIdentifier_found namespaces ns H).
    unfold result. cbn [snd]. intros Hid.
    assert (Hlen : len id = if (env_GetClusterID =? "")%string then 10
                            else 6 + len env_GetClusterID).
    { destruct (env_GetClusterID =? "")%string.
      - destruct (Z.le_gt_cases 10 (len (UID ns))) as [Hle|Hgt].
        + rewrite slice_to_long in Hid by lia.
          injection Hid as <-. now apply (len_take 10).
        + rewrite slice_to_short in Hid by lia. discriminate Hid.
      - destruct (Z.le_gt_cases 5 (len (UID ns))) as [Hle|Hgt].
        + rewrite slice_to_long in Hid by lia. unfold and_then in Hid.
          assert (Heq : take (Z.to_nat 5) (UID ns) ++ "-" ++ env_GetClusterID
                        = id) by congruence.
          clear Hid. subst id.
          rewrite len_app, (len_take (Z.to_nat 5)) by exact Hle.
          change (len ("-" ++ env_GetClusterID))
            with (len (String "-" env_GetClusterID)).
          rewrite len_String. lia.
        + rewrite slice_to_short in Hid by lia. discriminate Hid. }
    split; [exact Hlen|]. split.
    + intros ->. exfalso. change (len "") with 0 in Hlen.
      pose proof (len_nonneg env_GetClusterID).
      destruct (env_GetClusterID =? "")%string; lia.
    + intros [err Herr]. discriminate Herr.
  - rewrite (getClusterIdentifier_lookup_failed namespaces err H).
    unfold result. cbn [snd]. intros [= <-].
    split; [reflexivity|]. split; [now exists err | reflexivity].
Qed.

(** X10: the identifier depends on the UID only through its first 5
    bytes (10 without an external cluster id): two clusters whose UIDs
    share them get the same identifier. *)
Theorem getClusterIdentifier_prefix_only (ns1 ns2 : NamespaceInterface)
  (shared rest1 rest2 : string) :
  Get ns1 "kube-system" = inl {| UID := shared ++ rest1 |} ->
  Get ns2 "kube-system" = inl {| UID := shared ++ rest2 |} ->
  len shared = sliceLength env_GetClusterID ->
  getClusterIdentifier ns1 = getClusterIdentifier ns2
  /\ returns (result (getClusterIdentifier ns1)) = true.
Proof.
  intros H1 H2 Hlen.
  rewrite (getClusterIdentifier_found ns1 _ H1).
  rewrite (getClusterIdentifier_found ns2 _ H2).
  cbn [UID]. unfold sliceLength in Hlen.
  destruct (env_GetClusterID =? "")%string; rewrite <- Hlen;
    rewrite !slice_to_prefix; split; reflexivity.
Qed.

End Identifier.

Lemma getClusterIdentifier_length_witness :
  let C := Fake.collaborators (Fake.rejects "EOF") Fake.encodes "prod" in
  result (getClusterIdentifier (Fake.cluster Fake.uid)) = Returns "7e1a2-prod"
  /\ len "7e1a2-prod" = 6 + len "prod"
  /\ ("7e1a2-prod" = ""
      <-> exists err, Get (Fake.cluster Fake.uid) "kube-system" = inr err).
Proof.
  intros C. split; [reflexivity|].
  exact (getClusterIdentifier_length (Fake.cluster Fake.uid) "7e1a2-prod"
           eq_refl).
Defined.

Lemma getClusterIdentifier_prefix_only_witness :
  let C := Fake.collaborators (Fake.rejects "EOF") Fake.encodes "prod" in
  len "7e1a2" = sliceLength "prod"
  /\ getClusterIdentifier (Fake.cluster "7e1a2b3c-4d5e")
     = getClusterIdentifier (Fake.cluster "7e1a2fff-0000")
  /\ returns (result (getClusterIdentifier (Fake.cluster "7e1a2b3c-4d5e")))
     = true.
Proof.
  intros C. split; [reflexivity|].
  exact (getClusterIdentifier_prefix_only
           (Fake.cluster "7e1a2b3c-4d5e") (Fake.cluster "7e1a2fff-0000")
           "7e1a2" "b3c-4d5e" "fff-0000" eq_refl eq_refl eq_refl).
Defined.

(** ** Case of the type *)

Lemma upperByte_caseless (a b : ascii) :
  strings.isLower b = false ->
  strings.upperByte a = b <-> sameLetter a b = true.
Proof.
  intros Hb. unfold sameLetter, strings.upperByte. rewrite Hb.
  cbn [andb]. rewrite orb_false_r.
  destruct (strings.isLower a) eqn:Ha; cbn [andb].
  - assert (Hab : Ascii.eqb a b = false).
    { apply Ascii.eqb_neq. intros ->. congruence. }
    rewrite Hab. cbn [orb]. symmetry. apply Ascii.eqb_eq.
  - rewrite orb_false_r. symmetry. apply Ascii.eqb_eq.
Qed.

Lemma upperASCII_caseless (s t : string) :
  hasLower t = false ->
  strings.upperASCII s = t <-> equalFoldASCII s t = true.
Proof.
  revert t. induction s as [|a s IH]; intros [|b t] Ht;
    cbn [strings.upperASCII equalFoldASCII];
    try (split; [discriminate | discriminate]); [now split|].
  cbn [hasLower] in Ht. apply orb_false_iff in Ht as [Hb Ht].
  rewrite andb_true_iff, <- (upperByte_caseless a b Hb), <- (IH t Ht).
  split; [intros [= -> ->]; now split | intros [-> ->]; reflexivity].
Qed.

Lemma ToUpper_caseless (unicodeUpper : string -> string) (s t : string) :
  strings.isASCII s = true ->
  hasLower t = false ->
  strings.ToUpper unicodeUpper s = t <-> equalFoldASCII s t = true.
Proof.
  intros Hs Ht. unfold strings.ToUpper. rewrite Hs.
  now apply upperASCII_caseless.
Qed.

(** ** Runs of [NewBucketStorage] *)

Section Runs.

Context `{C : Collaborators}.

Lemma switchProvider_selected {N : Type} (sc : StorageConfig N)
  (payload : bytes) (ctor : bytes -> Storage * option error) :
  constructorOf (strings.ToUpper unicode_ToUpper (Type_ sc)) = Some ctor ->
  exists call,
    is_constructor_call call = true
    /\ switchProvider sc payload
       = ([call], result (afterSwitch (Type_ sc) (ctor payload))).
Proof.
  unfold constructorOf.
  destruct (String.eqb_spec (strings.ToUpper unicode_ToUpper (Type_ sc)) S3)
    as [H1|H1].
  { intros [= <-]. exists (CallNewS3Storage payload).
    split; [reflexivity | now apply switchProvider_S3]. }
  destruct (String.eqb_spec (strings.ToUpper unicode_ToUpper (Type_ sc)) GCS)
    as [H2|H2].
  { intros [= <-]. exists (CallNewGCSStorage payload).
    split; [reflexivity | now apply switchProvider_GCS]. }
  destruct (String.eqb_spec (strings.ToUpper unicode_ToUpper (Type_ sc)) AZURE)
    as [H3|H3].
  { intros [= <-]. exists (CallNewAzureStorage payload).
    split; [reflexivity | now apply switchProvider_AZURE]. }
  discriminate.
Qed.

Lemma switchProvider_unselected {N : Type} (sc : StorageConfig N)
  (payload : bytes) :
  constructorOf (strings.ToUpper unicode_ToUpper (Type_ sc)) = None ->
  switchProvider sc payload
  = ([], Returns (None,
                  Some (FormattedError ("storage with type " ++ Type_ sc
                                        ++ " is not supported")))).
Proof.
  unfold constructorOf.
  destruct (String.eqb_spec (strings.ToUpper unicode_ToUpper (Type_ sc)) S3)
    as [H1|H1]; [discriminate|].
  destruct (String.eqb_spec (strings.ToUpper unicode_ToUpper (Type_ sc)) GCS)
    as [H2|H2]; [discriminate|].
  destruct (String.eqb_spec (strings.ToUpper unicode_ToUpper (Type_ sc)) AZURE)
    as [H3|H3]; [discriminate|].
  intros _. now apply switchProvider_default.
Qed.

(** The effects of the switch are at most one constructor call, and a
    non-nil storage comes out of it only after a call and without error. *)
Lemma switchProvider_trace {N : Type} (sc : StorageConfig N)
  (payload : bytes) :
  exists calls r,
    switchProvider sc payload = (calls, Returns r)
    /\ (calls = [] \/ exists call,
          calls = [call] /\ is_constructor_call call = true)
    /\ (forall impl err,
          r = (Some impl, err) -> err = None /\ calls <> []).
Proof.
  destruct (constructorOf (strings.ToUpper unicode_ToUpper (Type_ sc)))
    as [ctor|] eqn:Hsel.
  - destruct (switchProvider_selected sc payload ctor Hsel)
      as (call & Hcall & ->).
    rewrite afterSwitch_pure. unfold result. cbn [snd].
    eexists _, _. split; [reflexivity|]. split; [right; now exists call|].
    intros impl err.
    destruct (ctor payload) as [built [cause|]]; cbn [fst snd];
      intros [= -> <-]; now split.
  - rewrite (switchProvider_unselected sc payload Hsel).
    eexists _, _. split; [reflexivity|]. split; [now left|].
    intros impl err [= ]. 
Qed.

(** X11: [NewBucketStorage] returns, rather than panics, exactly when
    the document is rejected, or its nested configuration cannot be
    re-encoded, or the derivation of the cluster identifier returns: a
    rejected configuration is reported as an error whatever the cluster
    answers. *)
Theorem NewBucketStorage_returns_iff (namespaces : NamespaceInterface)
  (config : bytes) :
  returns (result (NewBucketStorage namespaces config)) = true
  <-> (snd (yaml_UnmarshalStrict config zeroStorageConfig) <> None
       \/ snd (yaml_Marshal
                 (Config (fst (yaml_UnmarshalStrict config zeroStorageConfig))))
          <> None
       \/ returns (result (getClusterIdentifier namespaces)) = true).
Proof.
  destruct (yaml_UnmarshalStrict config zeroStorageConfig)
    as [storageConfig [cause|]] eqn:Hdec; cbn [fst snd].
  - rewrite (NewBucketStorage_parse_failed namespaces config storageConfig
               cause Hdec).
    split; [left; discriminate | reflexivity].
  - destruct (yaml_Marshal (Config storageConfig)) as [payload [cause|]]
      eqn:Henc; cbn [snd].
    + rewrite (NewBucketStorage_marshal_failed namespaces config
                 storageConfig payload cause Hdec Henc).
      split; [right; left; discriminate | reflexivity].
    + destruct (getClusterIdentifier namespaces) as [tr [clusterID|e]]
        eqn:Hrun.
      * rewrite (NewBucketStorage_run namespaces config storageConfig payload
                   Hdec Henc tr clusterID Hrun).
        destruct (switchProvider_returns storageConfig payload) as [r Hr].
        unfold result at 1. cbn [snd]. rewrite Hr.
        split; [right; right; reflexivity | reflexivity].
      * rewrite (NewBucketStorage_panics namespaces config storageConfig
                   payload Hdec Henc tr e Hrun).
        unfold result. cbn [snd returns].
        split; [discriminate | intros [H|[H|H]]; congruence].
Qed.

(** X12: the cluster identifier is only printed: two runs on the same
    document whose derivations return, whatever they return, call the same
    constructor and return the same storage and error. *)
Theorem NewBucketStorage_ignores_identifier (ns1 ns2 : NamespaceInterface)
  (config : bytes) :
  returns (result (getClusterIdentifier ns1)) = true ->
  returns (result (getClusterIdentifier ns2)) = true ->
  result (NewBucketStorage ns1 config) = result (NewBucketStorage ns2 config)
  /\ constructor_calls (trace (NewBucketStorage ns1 config))
     = constructor_calls (trace (NewBucketStorage ns2 config)).
Proof.
  intros H1 H2.
  destruct (yaml_UnmarshalStrict config zeroStorageConfig)
    as [storageConfig [cause|]] eqn:Hdec.
  - now rewrite !(NewBucketStorage_parse_failed _ config storageConfig
                    cause Hdec).
  - destruct (yaml_Marshal (Config storageConfig)) as [payload [cause|]]
      eqn:Henc.
    + now rewrite !(NewBucketStorage_marshal_failed _ config storageConfig
                      payload cause Hdec Henc).
    + destruct (NewBucketStorage_switch ns1 config storageConfig payload
                  Hdec Henc H1) as [-> ->].
      destruct (NewBucketStorage_switch ns2 config storageConfig payload
                  Hdec Henc H2) as [-> ->].
      split; reflexivity.
Qed.

(** X13: a run of [NewBucketStorage] calls at most one constructor, the
    call is its last effect, and a non-nil storage is returned only after
    such a call and with a nil error. *)
Theorem NewBucketStorage_one_constructor (namespaces : NamespaceInterface)
  (config : bytes) :
  (length (constructor_calls (trace (NewBucketStorage namespaces config)))
   <= 1)%nat
  /\ (forall call,
        In call (constructor_calls
                   (trace (NewBucketStorage namespaces config))) ->
        exists before,
          trace (NewBucketStorage namespaces config) = (before ++ [call])%list
          /\ constructor_calls before = [])
  /\ (forall impl err,
        result (NewBucketStorage namespaces config)
        = Returns (Some impl, err) ->
        err = None
        /\ length (constructor_calls
                     (trace (NewBucketStorage namespaces config))) = 1%nat).
Proof.
  destruct (yaml_UnmarshalStrict config zeroStorageConfig)
    as [storageConfig [cause|]] eqn:Hdec.
  - rewrite (NewBucketStorage_parse_failed namespaces config storageConfig
               cause Hdec).
    split; [cbn; lia|]. split; [intros call []|discriminate].
  - destruct (yaml_Marshal (Config storageConfig)) as [payload [cause|]]
      eqn:Henc.
    + rewrite (NewBucketStorage_marshal_failed namespaces config
                 storageConfig payload cause Hdec Henc).
      split; [cbn; lia|]. split; [intros call []|discriminate].
    + pose proof (getClusterIdentifier_no_constructor_call namespaces)
        as Hquiet.
      destruct (getClusterIdentifier namespaces) as [tr [clusterID|e]]
        eqn:Hrun; unfold trace in Hquiet; cbn [fst] in Hquiet.
      * rewrite (NewBucketStorage_run namespaces config storageConfig payload
                   Hdec Henc tr clusterID Hrun).
        destruct (switchProvider_trace storageConfig payload)
          as (calls & r & -> & Hshape & Hsome).
        unfold trace, result. cbn [fst snd].
        rewrite (constructor_calls_run tr calls clusterID Hquiet).
        destruct Hshape as [-> | (call & -> & Hcall)].
        -- split; [cbn; lia|]. split; [intros call []|].
           intros impl err [= ->].
           now destruct (Hsome impl err eq_refl) as [_ Hne].
        -- unfold constructor_calls at 1 2 4. cbn [filter]. rewrite Hcall.
           split; [cbn; lia|]. split.
           ++ intros c [<-|[]]. exists (tr ++ [Println clusterID])%list.
              split; [now rewrite <- app_assoc|].
              unfold constructor_calls in *.
              now rewrite filter_app, Hquiet.
           ++ intros impl err [= ->].
              now destruct (Hsome impl err eq_refl) as [-> _].
      * rewrite (NewBucketStorage_panics namespaces config storageConfig
                   payload Hdec Henc tr e Hrun).
        unfold trace, result. cbn [fst snd]. rewrite Hquiet.
        split; [cbn; lia|]. split; [intros call []|discriminate].
Qed.

End Runs.

Section DecodedRuns.

Context `{C : Collaborators}.
Variable namespaces : NamespaceInterface.
Variable config : bytes.
Variable storageConfig : StorageConfig Node.
Variable payload : bytes.

Hypothesis decoded :
  yaml_UnmarshalStrict config zeroStorageConfig = (storageConfig, None).
Hypothesis encoded :
  yaml_Marshal (Config storageConfig) = (payload, None).
Hypothesis derived :
  returns (result (getClusterIdentifier namespaces)) = true.

(** X14: what the selected constructor returns decides the result: its
    storage is handed on as it is when it reports no error, nil included;
    when it reports one, the storage is dropped and the error comes back
    under the context "create <type> client", with the type as the
    document wrote it. *)
Theorem constructor_result_returned
  (ctor : bytes -> Storage * option error) :
  constructorOf (strings.ToUpper unicode_ToUpper (Type_ storageConfig))
  = Some ctor ->
  (forall storage,
     ctor payload = (storage, None) ->
     result (NewBucketStorage namespaces config) = Returns (storage, None))
  /\ (forall storage cause,
        ctor payload = (storage, Some cause) ->
        exists err,
          result (NewBucketStorage namespaces config)
          = Returns (None, Some err)
          /\ errors.Error err
             = ("create " ++ Type_ storageConfig ++ " client")
               ++ ": " ++ errors.Error cause
          /\ errors.contexts err
             = ("create " ++ Type_ storageConfig ++ " client")
               :: errors.contexts cause).
Proof.
  intros Hsel.
  destruct (NewBucketStorage_switch namespaces config storageConfig payload
              decoded encoded derived) as [_ ->].
  destruct (switchProvider_selected storageConfig payload ctor Hsel)
    as (call & _ & ->).
  rewrite afterSwitch_pure. unfold result. cbn [snd].
  split.
  - intros storage ->. reflexivity.
  - intros storage cause ->. cbn [snd].
    eexists. split; [reflexivity|]. split; reflexivity.
Qed.

(** X15: for a type written in ASCII the switch compares up to letter
    case and nothing else: the S3, GCS or Azure constructor is called
    exactly when the type equals "S3", "GCS" or "AZURE" up to the case of
    its letters, and no constructor is called exactly when it equals
    none of them. *)
Theorem dispatch_ascii_caseless :
  strings.isASCII (Type_ storageConfig) = true ->
  (equalFoldASCII (Type_ storageConfig) "S3" = true
   <-> constructor_calls (trace (NewBucketStorage namespaces config))
       = [CallNewS3Storage payload])
  /\ (equalFoldASCII (Type_ storageConfig) "GCS" = true
      <-> constructor_calls (trace (NewBucketStorage namespaces config))
          = [CallNewGCSStorage payload])
  /\ (equalFoldASCII (Type_ storageConfig) "AZURE" = true
      <-> constructor_calls (trace (NewBucketStorage namespaces config))
          = [CallNewAzureStorage payload])
  /\ (equalFoldASCII (Type_ storageConfig) "S3"
      || equalFoldASCII (Type_ storageConfig) "GCS"
      || equalFoldASCII (Type_ storageConfig) "AZURE" = false
      <-> constructor_calls (trace (NewBucketStorage namespaces config)) = []).
Proof.
  intros Hascii.
  destruct (NewBucketStorage_switch namespaces config storageConfig payload
              decoded encoded derived) as [-> _].
  pose proof (ToUpper_caseless unicode_ToUpper (Type_ storageConfig) "S3"
                Hascii eq_refl) as E1.
  pose proof (ToUpper_caseless unicode_ToUpper (Type_ storageConfig) "GCS"
                Hascii eq_refl) as E2.
  pose proof (ToUpper_caseless unicode_ToUpper (Type_ storageConfig) "AZURE"
                Hascii eq_refl) as E3.
  destruct (equalFoldASCII (Type_ storageConfig) "S3") eqn:F1;
    destruct (equalFoldASCII (Type_ storageConfig) "GCS") eqn:F2;
    destruct (equalFoldASCII (Type_ storageConfig) "AZURE") eqn:F3;
    try (pose proof (proj2 E1 eq_refl) as T1);
    try (pose proof (proj2 E2 eq_refl) as T2);
    try (pose proof (proj2 E3 eq_refl) as T3);
    try (rewrite T1 in *; discriminate);
    try (rewrite T2 in *; discriminate).
  - rewrite (switchProvider_S3 storageConfig payload T1).
    repeat split; intros; try reflexivity; discriminate.
  - rewrite (switchProvider_GCS storageConfig payload T2).
    repeat split; intros; try reflexivity; discriminate.
  - rewrite (switchProvider_AZURE storageConfig payload T3).
    repeat split; intros; try reflexivity; discriminate.
  - rewrite (switchProvider_default storageConfig payload).
    + repeat split; intros; try reflexivity; discriminate.
    + intros T. apply E1 in T. discriminate.
    + intros T. apply E2 in T. discriminate.
    + intros T. apply E3 in T. discriminate.
Qed.

End DecodedRuns.

(** A reachable and an unreachable cluster, the same GCS document. *)
Lemma NewBucketStorage_ignores_identifier_witness :
  let C := Fake.collaborators (Fake.decodes_to "gcs" "bucket: x") Fake.encodes
             "prod" in
  getClusterIdentifier (Fake.cluster Fake.uid)
  <> getClusterIdentifier Fake.unreachable
  /\ result (NewBucketStorage (Fake.cluster Fake.uid) [])
     = result (NewBucketStorage Fake.unreachable [])
  /\ constructor_calls (trace (NewBucketStorage (Fake.cluster Fake.uid) []))
     = constructor_calls (trace (NewBucketStorage Fake.unreachable [])).
Proof.
  intros C. split; [discriminate|].
  exact (NewBucketStorage_ignores_identifier (Fake.cluster Fake.uid)
           Fake.unreachable [] eq_refl eq_refl).
Defined.

(** An S3 constructor that succeeds on a bucket, and one that fails on an
    empty payload while handing back a client. *)
Lemma constructor_result_returned_witness :
  (let C := Fake.collaborators (Fake.decodes_to "s3" "bucket: x")
              Fake.encodes "" in
   result (NewBucketStorage (Fake.cluster Fake.uid) [])
   = Returns (Some (Fake.S3Client (list_byte_of_string "bucket: x")), None))
  /\ (let C := Fake.collaborators (Fake.decodes_to "s3" "") Fake.encodes "" in
      exists err,
        result (NewBucketStorage (Fake.cluster Fake.uid) [])
        = Returns (None, Some err)
        /\ errors.Error err = "create s3 client: no bucket name"
        /\ errors.contexts err = ["create s3 client"]).
Proof.
  split; intros C.
  - exact (proj1 (constructor_result_returned (Fake.cluster Fake.uid) []
                    {| Type_ := "s3"; Config := Some "bucket: x" |}
                    (list_byte_of_string "bucket: x")
                    eq_refl eq_refl eq_refl NewS3Storage eq_refl)
             _ eq_refl).
  - exact (proj2 (constructor_result_returned (Fake.cluster Fake.uid) []
                    {| Type_ := "s3"; Config := Some "" |} []
                    eq_refl eq_refl eq_refl NewS3Storage eq_refl)
             (Some (Fake.S3Client []))
             (CollaboratorError "no bucket name") eq_refl).
Defined.

(** The type "Azure". *)
Lemma dispatch_ascii_caseless_witness :
  let C := Fake.collaborators (Fake.decodes_to "Azure" "container: x")
             Fake.encodes "" in
  strings.isASCII "Azure" = true
  /\ equalFoldASCII "Azure" "AZURE" = true
  /\ constructor_calls (trace (NewBucketStorage (Fake.cluster Fake.uid) []))
     = [CallNewAzureStorage (list_byte_of_string "container: x")].
Proof.
  intros C. split; [reflexivity|]. split; [reflexivity|].
  exact (proj1 (proj1 (proj2 (proj2
           (dispatch_ascii_caseless (Fake.cluster Fake.uid) []
              {| Type_ := "Azure"; Config := Some "container: x" |}
              (list_byte_of_string "container: x")
              eq_refl eq_refl eq_refl eq_refl)))) eq_refl).
Defined.

(** ** Standard output *)

Lemma printed_app (tr tr' : list event) :
  printed (tr ++ tr') = (printed tr ++ printed tr')%list.
Proof.
  induction tr as [|e tr IH]; [reflexivity|].
  destruct e; cbn [printed app]; now rewrite IH.
Qed.

Section Output.

Context `{C : Collaborators}.

Lemma getClusterIdentifier_prints_nothing (namespaces : NamespaceInterface) :
  printed (trace (getClusterIdentifier namespaces)) = [].
Proof.
  destruct (Get namespaces "kube-system") as [ns|err] eqn:H.
  - now rewrite (getClusterIdentifier_found namespaces ns H).
  - now rewrite (getClusterIdentifier_lookup_failed namespaces err H).
Qed.

(** X16: [NewBucketStorage] writes the derived cluster identifier to the
    standard output, once, when the document was decoded and re-encoded
    and the derivation returned (an empty line when the lookup failed);
    in every other run it writes nothing. *)
Theorem NewBucketStorage_prints_identifier (namespaces : NamespaceInterface)
  (config : bytes) :
  printed (trace (NewBucketStorage namespaces config))
  = match snd (yaml_UnmarshalStrict config zeroStorageConfig),
          snd (yaml_Marshal
                 (Config (fst (yaml_UnmarshalStrict config zeroStorageConfig)))),
          result (getClusterIdentifier namespaces)
    with
    | None, None, Returns clusterID => [clusterID]
    | _, _, _ => []
    end.
Proof.
  destruct (yaml_UnmarshalStrict config zeroStorageConfig)
    as [storageConfig [cause|]] eqn:Hdec; cbn [fst snd].
  - now rewrite (NewBucketStorage_parse_failed namespaces config storageConfig
                   cause Hdec).
  - destruct (yaml_Marshal (Config storageConfig)) as [payload [cause|]]
      eqn:Henc; cbn [snd].
    + now rewrite (NewBucketStorage_marshal_failed namespaces config
                     storageConfig payload cause Hdec Henc).
    + pose proof (getClusterIdentifier_prints_nothing namespaces) as Hquiet.
      destruct (getClusterIdentifier namespaces) as [tr [clusterID|e]]
        eqn:Hrun; unfold trace in Hquiet; cbn [fst] in Hquiet.
      * rewrite (NewBucketStorage_run namespaces config storageConfig payload
                   Hdec Henc tr clusterID Hrun).
        destruct (switchProvider_trace storageConfig payload)
          as (calls & r & -> & Hshape & _).
        unfold trace, result. cbn [fst snd].
        rewrite printed_app, Hquiet. cbn [printed app].
        destruct Hshape as [-> | (call & -> & Hcall)]; [reflexivity|].
        destruct call; try discriminate Hcall; reflexivity.
      * rewrite (NewBucketStorage_panics namespaces config storageConfig
                   payload Hdec Henc tr e Hrun).
        unfold trace, result. cbn [fst snd]. exact Hquiet.
Qed.

End Output.

(** ** Results by stage *)

Section Stages.

Context `{C : Collaborators}.

(** X17: whatever [NewBucketStorage] returns is the outcome of the stage
    that ended the run: the decoder's error under "parsing config YAML
    file" with a nil storage, and only when the decoder failed; the
    encoder's error under "marshal content of storage configuration" when
    the encoder failed after a successful decoding; the unsupported-type
    error when the switch has no constructor for the decoded type; the
    selected constructor's error under "create <type> client" when that
    constructor failed; and the selected constructor's storage with a nil
    error otherwise.  So a non-nil storage never comes with a non-nil
    error. *)
Theorem NewBucketStorage_result_by_stage (namespaces : NamespaceInterface)
  (config : bytes) (storage : Storage) (err : option error) :
  result (NewBucketStorage namespaces config) = Returns (storage, err) ->
  stage_outcome config storage err /\ (storage = None \/ err = None).
Proof.
  destruct (yaml_UnmarshalStrict config zeroStorageConfig)
    as [storageConfig [cause|]] eqn:Hdec.
  - rewrite (NewBucketStorage_parse_failed namespaces config storageConfig
               cause Hdec).
    intros [= <- <-]. split; [|now left].
    eapply ParseFailed; eassumption.
  - destruct (yaml_Marshal (Config storageConfig)) as [payload [cause|]]
      eqn:Henc.
    + rewrite (NewBucketStorage_marshal_failed namespaces config
                 storageConfig payload cause Hdec Henc).
      intros [= <- <-]. split; [|now left].
      eapply MarshalFailed; eassumption.
    + destruct (getClusterIdentifier namespaces) as [tr [clusterID|e]]
        eqn:Hrun.
      * rewrite (NewBucketStorage_run namespaces config storageConfig payload
                   Hdec Henc tr clusterID Hrun).
        unfold result at 1. cbn [snd].
        destruct (constructorOf
                    (strings.ToUpper unicode_ToUpper (Type_ storageConfig)))
          as [ctor|] eqn:Hsel.
        -- destruct (switchProvider_selected storageConfig payload ctor Hsel)
             as (call & _ & ->).
           rewrite afterSwitch_pure. unfold result. cbn [snd].
           destruct (ctor payload) as [built [cause|]] eqn:Hctor;
             cbn [fst snd]; intros [= <- <-].
           ++ split; [|now left]. eapply ConstructFailed; eassumption.
           ++ split; [|now right]. eapply Constructed; eassumption.
        -- rewrite (switchProvider_unselected storageConfig payload Hsel).
           unfold result. cbn [snd]. intros [= <- <-].
           split; [|now left]. eapply Unsupported; eassumption.
      * rewrite (NewBucketStorage_panics namespaces config storageConfig
                   payload Hdec Henc tr e Hrun).
        discriminate.
Qed.

End Stages.

(** An S3 constructor that hands back a client together with an error:
    the caller gets a nil storage and the constructor's error under
    "create s3 client". *)
Lemma NewBucketStorage_result_by_stage_witness :
  let C := Fake.collaborators (Fake.decodes_to "s3" "") Fake.encodes "prod" in
  let err := WithMessage (CollaboratorError "no bucket name")
               "create s3 client" in
  NewS3Storage [] = (Some (Fake.S3Client []),
                     Some (CollaboratorError "no bucket name"))
  /\ result (NewBucketStorage (Fake.cluster Fake.uid) [])
     = Returns (None, Some err)
  /\ stage_outcome [] None (Some err)
  /\ (@None Impl = None \/ Some err = None).
Proof.
  intros C err. split; [reflexivity|]. split; [reflexivity|].
  exact (NewBucketStorage_result_by_stage (Fake.cluster Fake.uid) []
           None (Some err) eq_refl).
Defined.

(** C8 fails on the code: on a cluster whose kube-system UID has two
    characters [NewBucketStorage] returns neither a storage nor an error,
    for a supported type as for an unsupported one; the slice in
    [getClusterIdentifier] panics after the document was decoded and before
    the switch. *)
Lemma NewBucketStorage_short_uid_returns_nothing :
  (let C := Fake.collaborators (Fake.decodes_to "s3" "bucket: x") Fake.encodes
              "" in
   result (NewBucketStorage (Fake.cluster "ab") [])
   = Panics (SliceBoundsOutOfRange 10 2)
   /\ constructor_calls (trace (NewBucketStorage (Fake.cluster "ab") [])) = []
   /\ ~ (exists storage err,
           result (NewBucketStorage (Fake.cluster "ab") [])
           = Returns (storage, err)))
  /\ (let C := Fake.collaborators (Fake.decodes_to "unknown" "bucket: x")
                 Fake.encodes "prod" in
      result (NewBucketStorage (Fake.cluster "ab") [])
      = Panics (SliceBoundsOutOfRange 5 2)
      /\ constructor_calls (trace (NewBucketStorage (Fake.cluster "ab") []))
         = []
      /\ ~ (exists storage err,
              result (NewBucketStorage (Fake.cluster "ab") [])
              = Returns (storage, err))).
Proof.
  split; intros C; (split; [reflexivity|]); (split; [reflexivity|]);
    intros (storage & err & H); discriminate H.
Qed.
